(** * College ERP scraper backend: extraction and normalisation pipeline

    A shallow embedding of [tools.py], [services.py], [redis_utils.py] and the
    dashboard handler of [main.py], with the properties of the extraction
    pipeline stated and proved over it.

    Conventions of the embedding.
    - Python [str] is [string]; the text is read as ASCII, so the whitespace,
      digits and case mappings that exist only outside ASCII are not part of
      the model.
    - Python [int] is [Z]; Python [float] is [pyfloat] (see below).
    - A Python [dict] is an association list in insertion order whose keys are
      pairwise distinct; [dict_set] is [d[k] = v].
    - A parsed document (what [BeautifulSoup(html, "lxml")] returns) is a
      [node]; the parser itself is a parameter of the functions that call it.
    - A function that can raise returns a [result]. *)

From stdpp Require Import gmap strings list.
From Stdlib Require Import ZArith Ascii Lia.

Set Warnings "-register-all".
Local Open Scope Z_scope.

(* ===================================================================== *)
(** * Text primitives (methods of Python's [str])                        *)
(* ===================================================================== *)

Module Text.

(** Code point of a character. *)
Definition code (c : ascii) : N := N_of_ascii c.

(** [str.isspace] on ASCII: TAB..CR, FS..US and the blank. *)
Definition is_space (c : ascii) : bool :=
  let n := code c in
  ((9 <=? n) && (n <=? 13) || (28 <=? n) && (n <=? 32))%N.

(** An ASCII decimal digit. *)
Definition is_digit (c : ascii) : bool :=
  let n := code c in ((48 <=? n) && (n <=? 57))%N.

Definition digit_value (c : ascii) : Z := Z.of_N (code c) - 48.

(** [s.lstrip()] *)
Fixpoint lstrip (s : string) : string :=
  match s with
  | EmptyString => EmptyString
  | String c s' => if is_space c then lstrip s' else s
  end.

(** [s.rstrip()] *)
Fixpoint rstrip (s : string) : string :=
  match s with
  | EmptyString => EmptyString
  | String c s' =>
      match rstrip s' with
      | EmptyString => if is_space c then EmptyString else String c EmptyString
      | r => String c r
      end
  end.

(** [s.strip()] *)
Definition strip (s : string) : string := rstrip (lstrip s).

(** [s.startswith(p)] *)
Definition startswith (p s : string) : bool := String.prefix p s.

(** [p in s] for strings: [p] occurs in [s] as a contiguous substring. *)
Fixpoint contains (p s : string) : bool :=
  String.prefix p s ||
  match s with
  | EmptyString => false
  | String _ s' => contains p s'
  end.

(** [s.replace(old, new)] for a non-empty [old]: scan from the left, and at
    every position where [old] starts emit [new] and jump over the match;
    [skip] counts the characters of the current match still to jump over. *)
Fixpoint replace_from (old new : string) (skip : nat) (s : string) : string :=
  match s with
  | EmptyString => EmptyString
  | String c s' =>
      match skip with
      | S k => replace_from old new k s'
      | O =>
          if String.prefix old s
          then new +:+ replace_from old new (String.length old - 1) s'
          else String c (replace_from old new O s')
      end
  end.

(** [s.replace(old, new)]; with an empty [old] Python puts [new] before every
    character and at the end. *)
Fixpoint interleave (new s : string) : string :=
  match s with
  | EmptyString => new
  | String c s' => new +:+ String c (interleave new s')
  end.

Definition replace (old new s : string) : string :=
  match old with
  | EmptyString => interleave new s
  | _ => replace_from old new O s
  end.

(** [s.upper()] on ASCII letters. *)
Definition upper_char (c : ascii) : ascii :=
  let n := code c in
  if ((97 <=? n) && (n <=? 122))%N then ascii_of_N (n - 32) else c.

Fixpoint upper (s : string) : string :=
  match s with
  | EmptyString => EmptyString
  | String c s' => String (upper_char c) (upper s')
  end.

(** [s.lower()] on ASCII letters. *)
Definition lower_char (c : ascii) : ascii :=
  let n := code c in
  if ((65 <=? n) && (n <=? 90))%N then ascii_of_N (n + 32) else c.

Fixpoint lower (s : string) : string :=
  match s with
  | EmptyString => EmptyString
  | String c s' => String (lower_char c) (lower s')
  end.

(** Truthiness of a string: non-empty. *)
Definition nonempty (s : string) : bool :=
  match s with EmptyString => false | _ => true end.

End Text.

(* ===================================================================== *)
(** * [format_oe_subject]                                                *)
(* ===================================================================== *)

(** [tools.format_oe_subject] *)
Definition format_oe_subject (subject : string) : string :=
  if Text.startswith "OE-" subject then
    let base :=
      Text.strip (Text.replace "(OE)" "" (Text.replace "OE-" "" subject)) in
    base +:+ "(OE)-OE"
  else subject.


(* ===================================================================== *)
(** * Python values                                                      *)
(* ===================================================================== *)

(** A Python [float].  [nan], the infinities and the zeros are the binary64
    ones; a finite non-zero float keeps the decimal [m * 10^e] it was read
    from (rounding to 53 bits is not modelled, no property below depends on
    it).  Reading a literal does decide whether it rounds to zero or
    overflows to an infinity, see [classify_float]. *)
Inductive pyfloat :=
| FNan
| FInf (neg : bool)
| FZero (neg : bool)
| FDec (neg : bool) (m : N) (e : Z).

(** JSON-like Python values.  A [VDict] lists its items in insertion order. *)
Inductive value :=
| VNone
| VBool (b : bool)
| VInt (z : Z)
| VFloat (f : pyfloat)
| VStr (s : string)
| VList (l : list value)
| VDict (d : list (string * value)).

Abbreviation dict := (list (string * value)).

(** Exceptions raised by the modelled code. *)
Inductive exn :=
| CollegePortalError (status_code : Z) (message : string)
| HTTPException (status_code : Z) (detail : string)
| ValueError (message : string)
| IndexError
| KeyError (key : string)
| TypeError
| RequestError.

Inductive result (A : Type) :=
| Ok (a : A)
| Raise (e : exn).
Arguments Ok {A} a.
Arguments Raise {A} e.

(** [d.get(k)] *)
Fixpoint dict_get (k : string) (d : dict) : option value :=
  match d with
  | [] => None
  | (k', v) :: d' => if String.eqb k k' then Some v else dict_get k d'
  end.

(** [d[k] = v]: overwrite the slot of [k] where it stands, or append. *)
Fixpoint dict_set (k : string) (v : value) (d : dict) : dict :=
  match d with
  | [] => [(k, v)]
  | (k', v') :: d' =>
      if String.eqb k k' then (k, v) :: d' else (k', v') :: dict_set k v d'
  end.

(** [dict(items)] *)
Definition dict_of_items (items : list (string * value)) : dict :=
  fold_left (fun d kv => dict_set kv.1 kv.2 d) items [].

Definition dict_keys (d : dict) : list string := map fst d.

(** [x == 0] for a Python value [x]. *)
Definition eq_zero (x : value) : bool :=
  match x with
  | VInt z => z =? 0
  | VFloat (FZero _) => true
  | VBool b => negb b
  | _ => false
  end.

(** [x == '-'] *)
Definition eq_dash (x : value) : bool :=
  match x with
  | VStr s => String.eqb s "-"
  | _ => false
  end.

(** [bool(x)] *)
Definition truthy (x : value) : bool :=
  match x with
  | VNone => false
  | VBool b => b
  | VInt z => negb (z =? 0)
  | VFloat (FZero _) => false
  | VFloat _ => true
  | VStr s => Text.nonempty s
  | VList l => match l with [] => false | _ => true end
  | VDict d => match d with [] => false | _ => true end
  end.

(* ===================================================================== *)
(** * [int(s)] and [float(s)]                                            *)
(* ===================================================================== *)

Module Num.

(** The continuation of a digit part: digits, each optionally preceded by one
    underscore.  Returns the digit values read and the unread rest. *)
Fixpoint digits_tail (s : string) : list Z * string :=
  match s with
  | EmptyString => ([], s)
  | String c s' =>
      if Text.is_digit c then
        let '(ds, r) := digits_tail s' in (Text.digit_value c :: ds, r)
      else if Ascii.eqb c "_" then
        match s' with
        | String d s'' =>
            if Text.is_digit d then
              let '(ds, r) := digits_tail s'' in (Text.digit_value d :: ds, r)
            else ([], s)
        | EmptyString => ([], s)
        end
      else ([], s)
  end.

(** [digitpart ::= digit (["_"] digit)*] *)
Definition digitpart (s : string) : option (list Z * string) :=
  match s with
  | String c s' =>
      if Text.is_digit c then
        let '(ds, r) := digits_tail s' in Some (Text.digit_value c :: ds, r)
      else None
  | EmptyString => None
  end.

(** Base-10 value of a digit list, most significant digit first. *)
Definition digits_value (ds : list Z) : Z :=
  fold_left (fun acc d => 10 * acc + d) ds 0.

(** An optional sign; [true] is a minus. *)
Definition sign (s : string) : bool * string :=
  match s with
  | String c s' =>
      if Ascii.eqb c "-" then (true, s')
      else if Ascii.eqb c "+" then (false, s')
      else (false, s)
  | EmptyString => (false, s)
  end.

(** [int(s)]; [None] is a [ValueError].  The interpreter's limit on the
    number of digits of the literal is not modelled. *)
Definition py_int (s : string) : option Z :=
  let '(neg, r) := sign (Text.strip s) in
  match digitpart r with
  | Some (ds, EmptyString) =>
      Some (if neg then - digits_value ds else digits_value ds)
  | _ => None
  end.

(** Does the decimal [m * 10^e] (with [m > 0]) round to zero in binary64?
    It does up to and including half of the least subnormal, [2^-1075]. *)
Definition underflows (m : Z) (e : Z) : bool :=
  if 0 <=? e then false else m * 2 ^ 1075 <=? 10 ^ (- e).

(** Does it round to an infinity?  From [2^1024 - 2^970] on. *)
Definition overflows (m : Z) (e : Z) : bool :=
  if 0 <=? e then 2 ^ 1024 - 2 ^ 970 <=? m * 10 ^ e
  else (2 ^ 1024 - 2 ^ 970) * 10 ^ (- e) <=? m.

Definition classify_float (neg : bool) (m : Z) (e : Z) : pyfloat :=
  if m =? 0 then FZero neg
  else if underflows m e then FZero neg
  else if overflows m e then FInf neg
  else FDec neg (Z.to_N m) e.

(** [number ::= [digitpart] "." digitpart | digitpart ["."]]: the digits
    before and after the point, and the unread rest. *)
Definition number (s : string) : option (list Z * list Z * string) :=
  match digitpart s with
  | Some (ip, r) =>
      match r with
      | String c r' =>
          if Ascii.eqb c "." then
            match digitpart r' with
            | Some (fp, r'') => Some (ip, fp, r'')
            | None => Some (ip, [], r')
            end
          else Some (ip, [], r)
      | EmptyString => Some (ip, [], r)
      end
  | None =>
      match s with
      | String c r' =>
          if Ascii.eqb c "." then
            match digitpart r' with
            | Some (fp, r'') => Some ([], fp, r'')
            | None => None
            end
          else None
      | EmptyString => None
      end
  end.

(** [exponent ::= ("e" | "E") [sign] digitpart], up to the end of the text;
    an absent exponent is [0]. *)
Definition exponent (s : string) : option Z :=
  match s with
  | EmptyString => Some 0
  | String c s' =>
      if Ascii.eqb c "e" || Ascii.eqb c "E" then
        let '(neg, r) := sign s' in
        match digitpart r with
        | Some (ds, EmptyString) =>
            Some (if neg then - digits_value ds else digits_value ds)
        | _ => None
        end
      else None
  end.

(** [float(s)]; [None] is a [ValueError]. *)
Definition py_float (s : string) : option pyfloat :=
  let '(neg, r) := sign (Text.strip s) in
  let w := Text.lower r in
  if String.eqb w "inf" || String.eqb w "infinity" then Some (FInf neg)
  else if String.eqb w "nan" then Some FNan
  else
    match number r with
    | Some (ip, fp, r') =>
        match exponent r' with
        | Some ex =>
            Some (classify_float neg (digits_value (ip ++ fp))
                                 (ex - Z.of_nat (length fp)))
        | None => None
        end
    | None => None
    end.

End Num.

(* ===================================================================== *)
(** * The field coercer: [to_number] and [convert_values_to_number]      *)
(* ===================================================================== *)

(** [tools.to_number] *)
Definition to_number (val : value) : value :=
  match val with
  | VStr s =>
      let value := Text.strip s in
      if String.eqb value "-" || String.eqb value "" then
        (if String.eqb value "-" then VStr "-" else VInt 0)
      else if negb (Text.contains "." value) then
        match Num.py_int value with
        | Some z => VInt z
        | None => VStr value
        end
      else
        match Num.py_float value with
        | Some f => VFloat f
        | None => VStr value
        end
  | _ => val
  end.

(** The [elif isinstance(v, str)] branch of [convert_values_to_number]: what
    the slot that held the string [s] holds after the iteration. *)
Definition coerce_str (s : string) : value :=
  let v := Text.strip s in
  if negb (Text.nonempty v) then VStr s
  else
    match Num.py_int v with
    | Some int_val => VInt int_val
    | None =>
        match Num.py_float v with
        | Some float_val => VFloat float_val
        | None => VStr s
        end
    end.

(** One iteration of the loop of [convert_values_to_number], as the new
    content of the slot visited: a nested dict is converted in place, a string
    goes through [coerce_str], anything else is left. *)
Fixpoint convert_slot (v : value) : value :=
  match v with
  | VDict n => VDict (map (fun kv => (kv.1, convert_slot kv.2)) n)
  | VStr s => coerce_str s
  | _ => v
  end.

(** [tools.convert_values_to_number]: the loop visits every slot of [d] once,
    in order, and writes to the slot it visits only. *)
Definition convert_values_to_number (d : dict) : dict :=
  map (fun kv => (kv.1, convert_slot kv.2)) d.

(** The same loop written with the assignments [d[k] = ...] it performs, on
    the dict being mutated; see [convert_loop_spec]. *)
Definition convert_loop_step (d : dict) (kv : string * value) : dict :=
  match kv.2 with
  | VDict n => dict_set kv.1 (VDict (convert_values_to_number n)) d
  | VStr s =>
      let v := Text.strip s in
      if negb (Text.nonempty v) then d
      else
        match Num.py_int v with
        | Some int_val => dict_set kv.1 (VInt int_val) d
        | None =>
            match Num.py_float v with
            | Some float_val => dict_set kv.1 (VFloat float_val) d
            | None => d
            end
        end
  | _ => d
  end.

Definition convert_loop (d : dict) : dict := fold_left convert_loop_step d d.



(* ===================================================================== *)
(** * The result monad                                                   *)
(* ===================================================================== *)

#[global] Instance result_ret : MRet result := fun _ a => Ok a.
#[global] Instance result_bind : MBind result := fun _ _ f m =>
  match m with
  | Ok a => f a
  | Raise e => Raise e
  end.

(** [l[i]] *)
Definition index {A} (l : list A) (i : nat) : result A :=
  match l !! i with
  | Some x => Ok x
  | None => Raise IndexError
  end.

(** [enumerate(l)] *)
Definition enumerate {A} (l : list A) : list (nat * A) :=
  zip (seq 0 (length l)) l.

(* ===================================================================== *)
(** * Parsed documents (the part of BeautifulSoup the code uses)         *)
(* ===================================================================== *)

(** An attribute value: a string, or a list of tokens for the multi-valued
    attributes such as [class]. *)
Inductive attr_value :=
| AStr (s : string)
| AList (l : list string).

Inductive node :=
| NavigableString (s : string)
| Tag (name : string) (attrs : list (string * attr_value)) (contents : list node).

Module Soup.

(** [tag.descendants]: every node below [n], in document order. *)
Fixpoint descendants (n : node) : list node :=
  match n with
  | NavigableString _ => []
  | Tag _ _ cs => flat_map (fun c => c :: descendants c) cs
  end.

(** [tag.attrs.get(k)] *)
Fixpoint lookup_attr (k : string) (attrs : list (string * attr_value)) : option attr_value :=
  match attrs with
  | [] => None
  | (k', v) :: attrs' => if String.eqb k k' then Some v else lookup_attr k attrs'
  end.

Definition get_attr (k : string) (n : node) : option attr_value :=
  match n with
  | Tag _ attrs _ => lookup_attr k attrs
  | NavigableString _ => None
  end.

(** Does an attribute value match the wanted string?  A token list matches
    when one token does, or when the whole value does. *)
Definition attr_matches (want : string) (v : attr_value) : bool :=
  match v with
  | AStr s => String.eqb s want
  | AList l =>
      existsb (String.eqb want) l || String.eqb (String.concat " " l) want
  end.

(** The filter of [find] and [find_all]: a tag whose name is one of [names]
    and whose attributes match every wanted pair. *)
Definition matches (names : list string) (want : list (string * string)) (n : node) : bool :=
  match n with
  | NavigableString _ => false
  | Tag name attrs _ =>
      existsb (String.eqb name) names &&
      forallb (fun kw =>
                 match lookup_attr kw.1 attrs with
                 | Some v => attr_matches kw.2 v
                 | None => false
                 end) want
  end.

(** [tag.find_all(names, want)] *)
Definition find_all (names : list string) (want : list (string * string)) (n : node) : list node :=
  filter (fun x => matches names want x = true) (descendants n).

(** [tag.find(names, want)]: the first match or [None]. *)
Definition find (names : list string) (want : list (string * string)) (n : node) : option node :=
  head (find_all names want n).

(** The text nodes below [n], in document order. *)
Definition strings (n : node) : list string :=
  omap (fun x => match x with NavigableString s => Some s | Tag _ _ _ => None end)
       (descendants n).

(** [tag.get_text(strip=True)]: every text node stripped, the empty ones
    dropped, the rest concatenated. *)
Definition get_text (n : node) : string :=
  String.concat ""
    (filter (fun s => Text.nonempty s = true) (map Text.strip (strings n))).

End Soup.

(* ===================================================================== *)
(** * Marks table: per-subject records                                   *)
(* ===================================================================== *)

(** One entry of a component array: [{"name":, "max":, "secured":}]. *)
Record component := Component {
  c_name : string;
  c_max : value;
  c_secured : value
}.

(** The per-subject record built by [parse_marks_table]. *)
Record subject := Subject {
  s_no : value;
  name : value;
  credits : value;
  assignment : list component;
  quiz : list component;
  internal : list component;
  sessional : list component;
  grade : value;
  grade_points : value
}.

(** The initial [subject] of a data row. *)
Definition empty_subject : subject :=
  Subject (VInt 0) (VStr "") (VInt 0) [] [] [] [] (VStr "-") (VInt 0).

(** The loop over [main_headers] that builds [component_map]. *)
Definition build_component_map (main_headers : list string) : list (string * string) :=
  flat_map (fun main_header =>
    if String.eqb main_header "S.No" || String.eqb main_header "Subject Name" then
      [(main_header, "single")]
    else if String.eqb main_header "ExternalGrades" then
      [(main_header, "grade"); (main_header, "points"); (main_header, "credits")]
    else
      [(main_header, "max"); (main_header, "secured")]) main_headers.

(** The inner dict of [temp_components] at [main_header], or the empty dict
    the code creates when the header is met for the first time. *)
Definition temp_entry (main_header : string) (temp_components : dict) : dict :=
  match dict_get main_header temp_components with
  | Some (VDict values) => values
  | _ => []
  end.

(** Body of the loop over [enumerate(component_map)]: route one cell. *)
Definition route_cell (st : subject * dict) (col : (string * string) * string) : subject * dict :=
  let '(subject, temp_components) := st in
  let '((main_header, sub_type), text) := col in
  let cell_value := to_number (VStr text) in
  if String.eqb main_header "S.No" then
    (Subject cell_value (name subject) (credits subject) (assignment subject)
       (quiz subject) (internal subject) (sessional subject) (grade subject)
       (grade_points subject), temp_components)
  else if String.eqb main_header "Subject Name" then
    (Subject (s_no subject) cell_value (credits subject) (assignment subject)
       (quiz subject) (internal subject) (sessional subject) (grade subject)
       (grade_points subject), temp_components)
  else if String.eqb main_header "ExternalGrades" then
    if String.eqb sub_type "grade" then
      (Subject (s_no subject) (name subject) (credits subject) (assignment subject)
         (quiz subject) (internal subject) (sessional subject) cell_value
         (grade_points subject), temp_components)
    else if String.eqb sub_type "points" then
      (Subject (s_no subject) (name subject) (credits subject) (assignment subject)
         (quiz subject) (internal subject) (sessional subject) (grade subject)
         cell_value, temp_components)
    else if String.eqb sub_type "credits" then
      (Subject (s_no subject) (name subject) cell_value (assignment subject)
         (quiz subject) (internal subject) (sessional subject) (grade subject)
         (grade_points subject), temp_components)
    else st
  else
    let values := temp_entry main_header temp_components in
    if String.eqb sub_type "max" then
      (subject, dict_set main_header (VDict (dict_set "max" cell_value values)) temp_components)
    else if String.eqb sub_type "secured" then
      (subject, dict_set main_header (VDict (dict_set "secured" cell_value values)) temp_components)
    else
      (subject, dict_set main_header (VDict values) temp_components).

(** [values.get(k, 0)] *)
Definition get_or_zero (k : string) (values : dict) : value :=
  default (VInt 0) (dict_get k values).

(** [x not in ['-', 0]] *)
Definition not_dash_or_zero (x : value) : bool :=
  negb (eq_dash x || eq_zero x).

(** Body of the loop over [temp_components.items()]: file one component pair
    under its family. *)
Definition classify_component (subj : subject) (item : string * value) : subject :=
  let '(comp_name, v) := item in
  let values := match v with VDict values => values | _ => [] end in
  let entry := Component comp_name (get_or_zero "max" values) (get_or_zero "secured" values) in
  if Text.startswith "Int" comp_name then
    Subject (s_no subj) (name subj) (credits subj) (assignment subj)
      (quiz subj) (internal subj ++ [entry]) (sessional subj)
      (grade subj) (grade_points subj)
  else if Text.startswith "Quiz" comp_name then
    Subject (s_no subj) (name subj) (credits subj) (assignment subj)
      (quiz subj ++ [entry]) (internal subj) (sessional subj)
      (grade subj) (grade_points subj)
  else if Text.startswith "Asst" comp_name then
    Subject (s_no subj) (name subj) (credits subj)
      (assignment subj ++ [entry]) (quiz subj) (internal subj)
      (sessional subj) (grade subj) (grade_points subj)
  else if Text.startswith "SessionalMarks" comp_name then
    let max_val := get_or_zero "max" values in
    let secured_val := get_or_zero "secured" values in
    if not_dash_or_zero max_val && not_dash_or_zero secured_val then
      Subject (s_no subj) (name subj) (credits subj) (assignment subj)
        (quiz subj) (internal subj)
        (sessional subj ++ [Component comp_name max_val secured_val])
        (grade subj) (grade_points subj)
    else subj
  else subj.

(** The [temp_components] of a data row whose cells carry [texts]. *)
Definition row_components (component_map : list (string * string)) (texts : list string) : subject * dict :=
  fold_left route_cell (zip component_map texts) (empty_subject, []).

(** Body of the loop over [data_rows] for a row of the schema's width: the
    [subject] appended to [subjects]. *)
Definition parse_subject_row (component_map : list (string * string)) (texts : list string) : subject :=
  let '(subject, temp_components) := row_components component_map texts in
  fold_left classify_component temp_components subject.

(** The newline character. *)
Definition newline : string := String (ascii_of_nat 10) EmptyString.

(** The header texts of a row: [[cell.get_text(strip=True).replace('\n', ' ')
    for cell in row.find_all('td')]]. *)
Definition header_texts (row : node) : list string :=
  map (fun cell => Text.replace newline " " (Soup.get_text cell))
      (Soup.find_all ["td"] [] row).

(** [rows[3:-2]] *)
Definition data_rows_of (rows : list node) : list node :=
  take (length rows - 2 - 3)%nat (drop 3 rows).

(** The loop over [data_rows]: rows whose width differs from the schema's
    are skipped. *)
Definition parse_data_rows (component_map : list (string * string)) (data_rows : list node) : list subject :=
  fold_left (fun subjects row =>
    let cells := Soup.find_all ["td"] [] row in
    if negb (length cells =? length component_map)%nat then subjects
    else subjects ++ [parse_subject_row component_map (map Soup.get_text cells)])
    data_rows [].

(** [tools.parse_marks_table] as far as its [subjects]: the second table of
    class [tableclass], its two header rows and its data rows.  (The gender
    cell, the totals row and the percentage row are not part of this
    development.) *)
Definition parse_marks_subjects (soup : node) : result (list subject) :=
  let tables := Soup.find_all ["table"] [("class", "tableclass")] soup in
  if (length tables <? 2)%nat then
    Raise (ValueError "Less than two tables with class='tableclass' found.")
  else
    table ← index tables 1;
    let rows := Soup.find_all ["tr"] [] table in
    main_header_row ← index rows 1;
    let main_headers := header_texts main_header_row in
    sub_header_row ← index rows 2;
    let sub_headers := header_texts sub_header_row in
    let component_map := build_component_map main_headers in
    Ok (parse_data_rows component_map (data_rows_of rows)).


(** The entry a pair of [temp_components] leaves in the sessional array:
    one whose label starts with ["SessionalMarks"] and whose [max] and
    [secured] are both neither ['-'] nor [0]. *)
Definition kept_sessional (item : string * value) : option component :=
  let '(comp_name, v) := item in
  let values := match v with VDict values => values | _ => [] end in
  let max_val := get_or_zero "max" values in
  let secured_val := get_or_zero "secured" values in
  if Text.startswith "SessionalMarks" comp_name
     && not_dash_or_zero max_val && not_dash_or_zero secured_val
  then Some (Component comp_name max_val secured_val)
  else None.

(* ===================================================================== *)
(** * The extractors of [tools.py]                                       *)
(* ===================================================================== *)

Section Extractors.

(** [BeautifulSoup(html, "lxml")]: the HTML parser, a library function. *)
Variable BeautifulSoup : string -> node.

(** [tools.get_student_info] *)
Definition get_student_info (html : string) : result dict :=
  if negb (Text.nonempty html) || (String.length (Text.strip html) =? 0)%nat then
    Raise (CollegePortalError 500 "Empty or invalid HTML received from ERP.")
  else
    let soup := BeautifulSoup html in
    match Soup.find ["div"] [("id", "divStudentInfo")] soup with
    | None =>
        Raise (CollegePortalError 500 "Student information section not found in ERP dashboard.")
    | Some student_info_div =>
        match Soup.find ["table"] [] student_info_div with
        | None =>
            Raise (CollegePortalError 500 "Student information table not found in ERP dashboard.")
        | Some table =>
            let data :=
              fold_left (fun data row =>
                match Soup.find_all ["th"; "td"] [] row with
                | col0 :: col1 :: _ =>
                    let key := Soup.get_text col0 in
                    let value := Soup.get_text col1 in
                    if Text.nonempty key && Text.nonempty value
                    then dict_set key (VStr value) data
                    else data
                | _ => data
                end) (Soup.find_all ["tr"] [] table) [] in
            match data with
            | [] =>
                Raise (CollegePortalError 500 "No student data found in ERP dashboard table.")
            | _ => Ok (convert_values_to_number data)
            end
        end
    end.

(** [[format_oe_subject(name.strip()) for name in headers]] *)
Definition normalized_names (headers : list string) : list string :=
  map (fun name => format_oe_subject (Text.strip name)) headers.

(** The test of the [keep_indices] comprehension. *)
Definition is_eca (name : string) : bool :=
  Text.startswith "ECA" (Text.upper name).

(** [[i for i, name in enumerate(full_names) if not name.upper().startswith("ECA")]] *)
Definition keep_indices_of (full_names : list string) : list nat :=
  map fst (filter (fun p => is_eca p.2 = false) (enumerate full_names)).

(** [[l[i] for i in indices]] *)
Definition select {A} (l : list A) (indices : list nat) : result (list A) :=
  mapM (index l) indices.

(** The per-row mapping of one data row:
    [convert_values_to_number(dict(zip(names, filtered_values)))] with
    [filtered_values = [values[i] for i in keep_indices if i < len(values)]]. *)
Definition row_mapping (names : list string) (keep_indices : list nat) (values : list string) : result dict :=
  filtered_values ← select values (filter (fun i => (i < length values)%nat) keep_indices);
  Ok (convert_values_to_number (dict_of_items (zip names (map VStr filtered_values)))).

(** The two loops over the data rows of [get_attendance_subjects]; they
    differ in the position of the row title only: cell [0] in the per-subject
    table, cell [1] in the totals table, the values following it. *)
Fixpoint attendance_rows (title_at : nat) (names : list string) (keep_indices : list nat)
    (rows : list node) (data : dict) : result dict :=
  match rows with
  | [] => Ok data
  | row :: rows' =>
      match Soup.find_all ["td"] [] row with
      | [] => attendance_rows title_at names keep_indices rows' data
      | cells =>
          title_cell ← index cells title_at;
          let row_title := Soup.get_text title_cell in
          let values := map Soup.get_text (drop (S title_at) cells) in
          mapping ← row_mapping names keep_indices values;
          attendance_rows title_at names keep_indices rows'
            (dict_set row_title (VDict mapping) data)
      end
  end.

(** [tools.get_attendance_subjects] *)
Definition get_attendance_subjects (html : string) : result (dict * dict * option attr_value) :=
  let soup := BeautifulSoup html in
  let image_url :=
    match Soup.find ["img"] [] soup with
    | Some img_tag => Soup.get_attr "src" img_tag
    | None => None
    end in
  match Soup.find ["table"] [("id", "TblDispAttSubSummary")] soup,
        Soup.find ["table"] [("id", "TblDispAttSummary")] soup with
  | Some sub_summary_table, Some total_summary_table =>
      match Soup.find ["table"] [("class", "tableclass")] sub_summary_table,
            Soup.find ["table"] [("class", "tableclass")] total_summary_table with
      | Some sub_inner_table, Some total_inner_table =>
          match Soup.find_all ["tr"] [] sub_inner_table,
                Soup.find_all ["tr"] [] total_inner_table with
          | sub_header :: sub_data, total_header :: total_data =>
              let sub_headers := map Soup.get_text (Soup.find_all ["td"] [] sub_header) in
              let sub_type_headers := map Soup.get_text (Soup.find_all ["td"] [] total_header) in
              let full_subject_names := normalized_names (drop 1 sub_headers) in
              let keep_indices := keep_indices_of full_subject_names in
              subject_names ← select full_subject_names keep_indices;
              let full_sub_type_names := normalized_names (drop 2 sub_type_headers) in
              let total_keep_indices := keep_indices_of full_sub_type_names in
              sub_type_names ← select full_sub_type_names total_keep_indices;
              sub_attendance_data ← attendance_rows 0 subject_names keep_indices sub_data [];
              total_attendance_data ← attendance_rows 1 sub_type_names total_keep_indices total_data [];
              Ok (sub_attendance_data, total_attendance_data, image_url)
          | _, _ =>
              Ok (convert_values_to_number [], convert_values_to_number [], image_url)
          end
      | _, _ => Ok ([], [], image_url)
      end
  | _, _ => Ok ([], [], image_url)
  end.

(* ===================================================================== *)
(** * The session cache ([redis_utils.py])                               *)
(* ===================================================================== *)

(** [json.loads] and [json.dumps]; [None] is an exception. *)
Variable json_loads : string -> option value.
Variable json_dumps : value -> option string.

(** What the handler can touch: the Redis store (a serialised document and
    its time to live per key) and the remote portal, of which the requests
    sent so far are recorded, oldest first. *)
Record world := World {
  redis : gmap string (string * Z);
  requests : list string
}.

(** [redis_utils.get_cached_data]; every exception is turned into [None]. *)
Definition get_cached_data (w : world) (key : string) : option value :=
  match redis w !! key with
  | Some (data, _) => if Text.nonempty data then json_loads data else None
  | None => None
  end.

(** [redis_utils.set_cached_data]; a failure to serialise stores nothing. *)
Definition set_cached_data (w : world) (key : string) (val : value) (ttl : Z) : bool * world :=
  match json_dumps val with
  | Some serialized => (true, World (<[key := (serialized, ttl)]> (redis w)) (requests w))
  | None => (false, w)
  end.

(** [redis_utils.delete_cache] *)
Definition delete_cache (w : world) (key : string) : bool * world :=
  (bool_decide (is_Some (redis w !! key)), World (delete key (redis w)) (requests w)).

(* ===================================================================== *)
(** * The orchestrator ([services.py]) and the handler ([main.py])       *)
(* ===================================================================== *)

(** The portal: the text of the response to a GET of a URL with the session
    cookie, or a transport error. *)
Variable portal : string -> string -> result string.

(** [tools.get_current_sem] and the whole of [tools.parse_marks_table]; the
    orchestrator only passes their results on. *)
Variable get_current_sem : string -> result dict.
Variable parse_marks_table : string -> result (value * value).

Definition LOGIN_URL : string := "https://erp.vce.ac.in/sinfo/Default.aspx".
Definition DASHBOARD_URL : string := "https://erp.vce.ac.in/sinfo/DashBoard.aspx".

(** [await client.get(url, headers=headers)] followed by [.text] *)
Definition client_get (url session_id : string) (w : world) : result string * world :=
  (portal url session_id, World (redis w) (requests w ++ [url])).

(** An attribute value as a Python value. *)
Definition value_of_attr (a : attr_value) : value :=
  match a with
  | AStr s => VStr s
  | AList l => VList (map VStr l)
  end.

(** [soup.find("input", {"name": field})["value"]] *)
Definition hidden_field (soup : node) (field : string) : result value :=
  match Soup.find ["input"] [("name", field)] soup with
  | None => Raise TypeError
  | Some input =>
      match Soup.get_attr "value" input with
      | Some v => Ok (value_of_attr v)
      | None => Raise (KeyError "value")
      end
  end.

(** [d[k]] on a Python value *)
Definition subscript (d : value) (k : string) : result value :=
  match d with
  | VDict items =>
      match dict_get k items with
      | Some v => Ok v
      | None => Raise (KeyError k)
      end
  | _ => Raise TypeError
  end.

(** The URL argument of [client.get] must be a string. *)
Definition as_url (v : value) : result string :=
  match v with
  | VStr url => Ok url
  | _ => Raise TypeError
  end.

(** [services.fetch_dashboard_data].  The two sub-page requests are created
    first and awaited together: both are sent, and a failure of either one
    fails the whole call. *)
Definition fetch_dashboard_data (html session_id : string) (w : world) : result value * world :=
  let soup := BeautifulSoup html in
  let parsed :=
    viewstate ← hidden_field soup "__VIEWSTATE";
    viewstate_generator ← hidden_field soup "__VIEWSTATEGENERATOR";
    event_validation ← hidden_field soup "__EVENTVALIDATION";
    student_dashboard ← get_student_info html;
    current_sem ← get_current_sem html;
    attendance_link ← subscript (VDict current_sem) "Attendance Link";
    marks_link ← subscript (VDict current_sem) "Marks Link";
    attendance_url ← as_url attendance_link;
    marks_url ← as_url marks_link;
    Ok (viewstate, viewstate_generator, event_validation, student_dashboard,
        current_sem, attendance_url, marks_url) in
  match parsed with
  | Raise e => (Raise e, w)
  | Ok (viewstate, viewstate_generator, event_validation, student_dashboard,
        current_sem, attendance_url, marks_url) =>
      let '(attendance_response, w1) := client_get attendance_url session_id w in
      let '(marks_response, w2) := client_get marks_url session_id w1 in
      (attendance_text ← attendance_response;
       marks_text ← marks_response;
       '(marks_data, gender) ← parse_marks_table marks_text;
       '(sub_attendance_data, total_attendance_data, img_url) ←
          get_attendance_subjects attendance_text;
       let student_dashboard := dict_set "Gender" gender student_dashboard in
       Ok (VDict
             [("dashboardData",
               VDict [("DashBoard", VDict student_dashboard);
                      ("Current Sem", VDict current_sem);
                      ("Subjects Attendance Data", VDict sub_attendance_data);
                      ("Total Attendance Data", VDict total_attendance_data);
                      ("Student Image", from_option value_of_attr VNone img_url);
                      ("Marks Data", marks_data)]);
              ("hiddenFields",
               VDict [("viewstate", viewstate);
                      ("viewstate_generator", viewstate_generator);
                      ("event_validation", event_validation)])]),
       w2)
  end.

(** The response body [{"dashboardData": data["dashboardData"]}]. *)
Definition dashboard_response (data : value) : result value :=
  dashboard_data ← subscript data "dashboardData";
  Ok (VDict [("dashboardData", dashboard_data)]).

(** The path of [main.dashboard] after a cache miss: fetch the dashboard page,
    check the login marker, assemble and store the snapshot. *)
Definition dashboard_miss (session_id redis_key : string) (w : world) : result value * world :=
  let '(dashboard_text, w1) := client_get DASHBOARD_URL session_id w in
  match dashboard_text with
  | Raise e => (Raise e, w1)
  | Ok html_text =>
      if negb (Text.contains "Logout" html_text) then
        (Raise (HTTPException 401 "Session expired"), w1)
      else
        let '(fetched, w2) := fetch_dashboard_data html_text session_id w1 in
        match fetched with
        | Raise e => (Raise e, w2)
        | Ok dashboard_data =>
            let '(_, w3) := set_cached_data w2 redis_key dashboard_data 3600 in
            (dashboard_response dashboard_data, w3)
        end
  end.

(** [main.dashboard], the handler of [POST /dashboard]: a truthy cached
    document is served without contacting the portal. *)
Definition dashboard (session_id : string) (w : world) : result value * world :=
  let redis_key := "erp:session:" +:+ session_id in
  match get_cached_data w redis_key with
  | Some cached_data =>
      if truthy cached_data then (dashboard_response cached_data, w)
      else dashboard_miss session_id redis_key w
  | None => dashboard_miss session_id redis_key w
  end.

End Extractors.

(** "Begins with ECA in any letter case", character by character. *)
Definition begins_with_eca (k : string) : bool :=
  match k with
  | String c1 (String c2 (String c3 _)) =>
      (Ascii.eqb c1 "E" || Ascii.eqb c1 "e") &&
      (Ascii.eqb c2 "C" || Ascii.eqb c2 "c") &&
      (Ascii.eqb c3 "A" || Ascii.eqb c3 "a")
  | _ => false
  end.

(** Every row of a matrix is a mapping whose keys are among [names]. *)
Definition rows_keyed_by (names : list string) (data : dict) : Prop :=
  forall title v, (title, v) ∈ data ->
    exists m, v = VDict m /\ forall k, k ∈ dict_keys m -> k ∈ names.

(* ===================================================================== *)
(** * Sample documents                                                   *)
(* ===================================================================== *)

Definition td (text : string) : node := Tag "td" [] [NavigableString text].
Definition tr (cells : list string) : node := Tag "tr" [] (map td cells).
Definition inner_table (rows : list (list string)) : node :=
  Tag "table" [("class", AList ["tableclass"])] (map tr rows).

(** An attendance page with an open elective, an ECA column and a short
    second row. *)
Definition attendance_page : node :=
  Tag "html" []
    [Tag "img" [("src", AStr "photo.jpg")] [];
     Tag "table" [("id", AStr "TblDispAttSubSummary")]
       [inner_table [["Classes"; "DS"; "ECA-Sports"; "OE-DBMS(OE)"];
                     ["Held Classes"; "10"; "3"; "12"];
                     ["Presentees"; "9"; "2"]]];
     Tag "table" [("id", AStr "TblDispAttSummary")]
       [inner_table [["Sl"; "Type"; "Theory"; "eca"];
                     ["1"; "Held Classes"; "22"; "3"]]]].

(** An attendance page whose header names the subject "DS" twice. *)
Definition attendance_page_repeated : node :=
  Tag "html" []
    [Tag "table" [("id", AStr "TblDispAttSubSummary")]
       [inner_table [["Classes"; "DS"; "DS"; "DBMS"];
                     ["Held Classes"; "10"; "12"]]];
     Tag "table" [("id", AStr "TblDispAttSummary")]
       [inner_table [["Sl"; "Type"; "Theory"];
                     ["1"; "Held Classes"; "22"]]]].

(** An attendance page without the totals table. *)
Definition attendance_page_partial : node :=
  Tag "html" []
    [Tag "img" [("src", AStr "photo.jpg")] [];
     Tag "table" [("id", AStr "TblDispAttSubSummary")]
       [inner_table [["Classes"; "DS"]; ["Held Classes"; "10"]]]].

(** A marks page: a first table of class [tableclass], then the marks
    table with its title row, two header rows, two data rows, a separator
    row, the totals row and the percentage row. *)
Definition marks_page : node :=
  Tag "html" []
    [inner_table [["Name"; "M.Harshith"]];
     inner_table
       [["Marks"];
        ["S.No"; "Subject Name"; "Int2"; "SessionalMarks"; "ExternalGrades"];
        ["S.No"; "Subject Name"; "Max"; "Sec"; "Max"; "Sec"; "Grade"; "Points"; "Credits"];
        ["1"; "Maths"; "20"; "18"; "40"; "35"; "A"; "9"; "3"];
        ["separator"];
        ["2"; "Physics"; "20"; "-"; "0"; "0"; "-"; ""; "3.0"];
        ["Total"; "40"; "18"; "40"; "35"];
        ["Percentage"; "45"; "87.5"; "SGPA : 9.0"]]].

(** A dashboard page with the student-information table, the three hidden
    form fields and the logout link. *)
Definition dashboard_page : node :=
  Tag "html" []
    [Tag "input" [("type", AStr "hidden"); ("name", AStr "__VIEWSTATE"); ("value", AStr "vs")] [];
     Tag "input" [("type", AStr "hidden"); ("name", AStr "__VIEWSTATEGENERATOR"); ("value", AStr "vg")] [];
     Tag "input" [("type", AStr "hidden"); ("name", AStr "__EVENTVALIDATION"); ("value", AStr "ev")] [];
     Tag "a" [("href", AStr "Logout.aspx")] [NavigableString "Logout"];
     Tag "div" [("id", AStr "divStudentInfo")]
       [Tag "table" []
          [Tag "tr" [] [Tag "th" [] [NavigableString " Name "]; td "M.Harshith"];
           Tag "tr" [] [Tag "th" [] [NavigableString "Sem."]; td " 5 "];
           Tag "tr" [] [td "only one cell"];
           Tag "tr" [] [Tag "th" [] [NavigableString "Section"]; td "  "]]]].

(** A dashboard page whose student-information table has no rows. *)
Definition dashboard_page_no_rows : node :=
  Tag "html" [] [Tag "div" [("id", AStr "divStudentInfo")] [Tag "table" [] []]].

(* ===================================================================== *)
(** * Evaluations                                                        *)
(* ===================================================================== *)

Example format_oe_subject_examples :
  map format_oe_subject ["OE-DBMS(OE)"; "OE-DBMS"; "DS"; "OE-OOE-E-"; "OE-(OE)-OE"] =
  ["DBMS(OE)-OE"; "DBMS(OE)-OE"; "DS"; "OE-(OE)-OE"; "-OE(OE)-OE"].
Proof. reflexivity. Qed.

Example strip_example : Text.strip "  a b  " = "a b".
Proof. reflexivity. Qed.

Example py_int_examples :
  map Num.py_int
      ["12"; " -7 "; "1_000"; "1__0"; "_1"; "1_"; "+"; ""; "1.5"; "007"; "1e5"] =
  [Some 12; Some (-7); Some 1000; None; None; None; None; None; None; Some 7; None].
Proof. reflexivity. Qed.

Example py_float_examples :
  map Num.py_float
      ["1.5"; ".5"; "5."; "."; "1e5"; "-inf"; "NaN"; "1_0.2_5e-1_0"; "1_.5";
       "0.0"; "1e"; "1.e2"; "0.1e-400"; "1.0e999"; "-0.0"] =
  [Some (FDec false 15 (-1)); Some (FDec false 5 (-1)); Some (FDec false 5 0);
   None; Some (FDec false 1 5); Some (FInf true); Some FNan;
   Some (FDec false 1025 (-12)); None; Some (FZero false); None;
   Some (FDec false 1 2); Some (FZero false); Some (FInf false);
   Some (FZero true)].
Proof. vm_compute. reflexivity. Qed.

Example to_number_examples :
  map to_number
      [VStr ""; VStr " "; VStr "-"; VStr "12"; VStr "1.5"; VStr "abc ";
       VStr "1e5"; VInt 3] =
  [VInt 0; VInt 0; VStr "-"; VInt 12; VFloat (FDec false 15 (-1)); VStr "abc";
   VStr "1e5"; VInt 3].
Proof. vm_compute. reflexivity. Qed.

Example convert_values_to_number_example :
  convert_values_to_number
    [("a", VStr " 12 "); ("b", VStr " x "); ("c", VDict [("d", VStr "1e1")]);
     ("e", VStr " "); ("f", VBool true)] =
  [("a", VInt 12); ("b", VStr " x "); ("c", VDict [("d", VFloat (FDec false 1 1))]);
   ("e", VStr " "); ("f", VBool true)].
Proof. vm_compute. reflexivity. Qed.

Example convert_loop_example :
  convert_loop
    [("a", VStr " 12 "); ("b", VStr " x "); ("c", VDict [("d", VStr "1e1")]);
     ("e", VStr " "); ("f", VBool true)] =
  [("a", VInt 12); ("b", VStr " x "); ("c", VDict [("d", VFloat (FDec false 1 1))]);
   ("e", VStr " "); ("f", VBool true)].
Proof. vm_compute. reflexivity. Qed.

(** A column "Int2" with [max 20], [secured 18] is filed under [internal]; a
    "SessionalMarks" column with [max 0], [secured 0] leaves no entry. *)
Example parse_subject_row_example :
  parse_subject_row
    (build_component_map
       ["S.No"; "Subject Name"; "Int2"; "SessionalMarks"; "ExternalGrades"])
    ["1"; "Maths"; "20"; "18"; "0"; "0"; "A"; "9"; "3"] =
  Subject (VInt 1) (VStr "Maths") (VInt 3) [] []
          [Component "Int2" (VInt 20) (VInt 18)] [] (VStr "A") (VInt 9).
Proof. vm_compute. reflexivity. Qed.

Example parse_marks_subjects_example :
  parse_marks_subjects marks_page =
  Ok [Subject (VInt 1) (VStr "Maths") (VInt 3) [] []
              [Component "Int2" (VInt 20) (VInt 18)]
              [Component "SessionalMarks" (VInt 40) (VInt 35)]
              (VStr "A") (VInt 9);
      Subject (VInt 2) (VStr "Physics") (VFloat (FDec false 30 (-1))) [] []
              [Component "Int2" (VInt 20) (VStr "-")] []
              (VStr "-") (VInt 0)].
Proof. vm_compute. reflexivity. Qed.

(* ===================================================================== *)
(** * Facts about the text primitives                                    *)
(* ===================================================================== *)

Section TextFacts.
Import Text.


Lemma rstrip_cons_nonspace c s :
  is_space c = false -> exists r, rstrip (String c s) = String c r.
Proof.
  intros H. simpl. destruct (rstrip s) as [|d r].
  - rewrite H. now exists EmptyString.
  - now exists (String d r).
Qed.


Lemma lstrip_head s :
  lstrip s = EmptyString \/ exists c r, lstrip s = String c r /\ is_space c = false.
Proof.
  induction s as [|c s IH]; [now left|].
  simpl. destruct (is_space c) eqn:Hc; [exact IH|].
  right. now exists c, s.
Qed.



Lemma strip_head s :
  strip s = EmptyString \/ exists c r, strip s = String c r /\ is_space c = false.
Proof.
  unfold strip. destruct (lstrip_head s) as [E | (c & r & E & Hc)]; rewrite E.
  - now left.
  - right. destruct (rstrip_cons_nonspace c r Hc) as [r' E']. now exists c, r'.
Qed.

Lemma contains_cons p c s :
  contains p (String c s) = String.prefix p (String c s) || contains p s.
Proof. reflexivity. Qed.

Lemma replace_from_absent old new s :
  contains old s = false -> replace_from old new 0 s = s.
Proof.
  induction s as [|c s IH]; [reflexivity|].
  rewrite contains_cons. intros H. apply orb_false_iff in H as [Hp Hs].
  cbn [replace_from]. rewrite Hp. now rewrite IH.
Qed.

Lemma replace_absent old new s :
  contains old s = false -> replace old new s = s.
Proof.
  intros H. destruct old as [|a old].
  - destruct s; discriminate.
  - now apply replace_from_absent.
Qed.

Lemma prefix_cons a p b s :
  String.prefix (String a p) (String b s) = Ascii.eqb a b && String.prefix p s.
Proof.
  cbn [String.prefix]. destruct (ascii_dec a b) as [->|Hne].
  - now rewrite Ascii.eqb_refl.
  - apply Ascii.eqb_neq in Hne. now rewrite Hne.
Qed.

Lemma prefix_nil_r a p : String.prefix (String a p) EmptyString = false.
Proof. reflexivity. Qed.

Lemma prefix_nil_l s : String.prefix EmptyString s = true.
Proof. now destruct s. Qed.

Lemma str_app_cons c s t : String c s +:+ t = String c (s +:+ t).
Proof. reflexivity. Qed.

Lemma str_app_nil_l t : EmptyString +:+ t = t.
Proof. reflexivity. Qed.

End TextFacts.

(** Decide a goal about prefixes of literal patterns by comparing the
    characters one at a time. *)
Ltac prefix_norm :=
  rewrite ?str_app_cons, ?str_app_nil_l, ?prefix_cons, ?prefix_nil_r, ?prefix_nil_l in *.

Ltac dec_chars :=
  prefix_norm;
  repeat match goal with
  | |- context [Ascii.eqb ?a ?b] =>
      is_var b; destruct (Ascii.eqb_spec a b) as [<-|?]
  | H : context [Ascii.eqb ?a ?b] |- _ =>
      is_var b; destruct (Ascii.eqb_spec a b) as [<-|?]
  end;
  cbn in *; try congruence.

Section PatternFacts.
Import Text.

Lemma no_oe_dash_app X :
  contains "OE-" X = false -> contains "OE-" (X +:+ "(OE)") = false.
Proof.
  induction X as [|c X IH]; [reflexivity|].
  rewrite contains_cons. intros H. apply orb_false_iff in H as [Hp Hs].
  rewrite str_app_cons, contains_cons, (IH Hs), orb_false_r.
  clear IH Hs. destruct X as [|c2 [|c3 X]]; dec_chars.
Qed.

Lemma remove_oe_paren_app X :
  contains "(OE)" X = false -> replace_from "(OE)" "" 0 (X +:+ "(OE)") = X.
Proof.
  induction X as [|c X IH]; [reflexivity|].
  rewrite contains_cons. intros H. apply orb_false_iff in H as [Hp Hs].
  rewrite str_app_cons. cbn [replace_from].
  assert (String.prefix "(OE)" (String c (X +:+ "(OE)")) = false) as ->.
  { clear IH Hs. destruct X as [|c2 [|c3 [|c4 X]]]; dec_chars. }
  now rewrite (IH Hs).
Qed.

Lemma startswith_oe_suffix b :
  startswith "OE-" (b +:+ "(OE)-OE") = startswith "OE-" b.
Proof.
  unfold startswith. destruct b as [|c1 [|c2 [|c3 b]]]; dec_chars.
Qed.

Lemma replace_from_skip old new k c s :
  replace_from old new (S k) (String c s) = replace_from old new k s.
Proof. reflexivity. Qed.

Lemma remove_leading_oe X :
  replace "OE-" "" ("OE-" +:+ X) = replace "OE-" "" X.
Proof.
  unfold replace. rewrite !str_app_cons, str_app_nil_l.
  cbn [replace_from]. rewrite !prefix_cons, prefix_nil_l.
  reflexivity.
Qed.

End PatternFacts.

(* ===================================================================== *)
(** * The open-elective rewrite                                          *)
(* ===================================================================== *)

Section OpenElective.
Import Text.


Lemma format_oe_subject_oe X :
  format_oe_subject ("OE-" +:+ X) =
  strip (replace "(OE)" "" (replace "OE-" "" X)) +:+ "(OE)-OE".
Proof.
  unfold format_oe_subject.
  assert (startswith "OE-" ("OE-" +:+ X) = true) as ->.
  { unfold startswith. rewrite !str_app_cons, str_app_nil_l, !prefix_cons, prefix_nil_l.
    reflexivity. }
  now rewrite remove_leading_oe.
Qed.

Lemma format_oe_subject_clean X :
  contains "OE-" X = false -> contains "(OE)" X = false -> strip X = X ->
  format_oe_subject ("OE-" +:+ X) = X +:+ "(OE)-OE" /\
  format_oe_subject ("OE-" +:+ X +:+ "(OE)") = X +:+ "(OE)-OE".
Proof.
  intros Hoe Hp Hs. rewrite !format_oe_subject_oe. split.
  - now rewrite (replace_absent _ _ _ Hoe), (replace_absent _ _ _ Hp), Hs.
  - rewrite (replace_absent _ _ _ (no_oe_dash_app _ Hoe)).
    unfold replace. now rewrite (remove_oe_paren_app _ Hp), Hs.
Qed.







(** The rewrite of a name that does not start with ["OE-"], or of a clean
    open-elective name, does not begin with ["OE-"]. *)
Lemma format_oe_subject_clean_output X :
  contains "OE-" X = false -> contains "(OE)" X = false -> strip X = X ->
  startswith "OE-" (format_oe_subject ("OE-" +:+ X)) = false.
Proof.
  intros Hoe Hp Hs.
  destruct (format_oe_subject_clean X Hoe Hp Hs) as [-> _].
  rewrite startswith_oe_suffix. unfold startswith.
  destruct X as [|c X]; [reflexivity|].
  rewrite contains_cons in Hoe. now apply orb_false_iff in Hoe as [? _].
Qed.

(** A rewrite that begins with ["OE-"] can still be a fixed point: not
    beginning with ["OE-"] is a sufficient condition only. *)
Example format_oe_subject_fixed_point :
  format_oe_subject "OE-OE(OE)-OE" = "OE-OE(OE)-OE".
Proof. reflexivity. Qed.

End OpenElective.

(* ===================================================================== *)
(** * The field coercer                                                  *)
(* ===================================================================== *)

Section FieldCoercer.
Import Text.

(** Induction on values, through the lists and dicts nested in them. *)
Lemma value_nested_ind (P : value -> Prop) :
  P VNone -> (forall b, P (VBool b)) -> (forall z, P (VInt z)) ->
  (forall f, P (VFloat f)) -> (forall s, P (VStr s)) ->
  (forall l, Forall P l -> P (VList l)) ->
  (forall d, Forall (fun kv => P kv.2) d -> P (VDict d)) ->
  forall v, P v.
Proof.
  intros HN HB HI HF HS HL HD.
  fix IH 1. intros [| b | z | f | s | l | d].
  - exact HN.
  - apply HB.
  - apply HI.
  - apply HF.
  - apply HS.
  - apply HL. induction l as [|x l IHl]; constructor; [apply IH | exact IHl].
  - apply HD. induction d as [|[k x] d IHd]; constructor; [apply IH | exact IHd].
Qed.








(** A coerced string is left alone by a second pass. *)
Lemma convert_slot_coerce_str s : convert_slot (coerce_str s) = coerce_str s.
Proof.
  unfold coerce_str at 1.
  destruct (negb (nonempty (strip s))) eqn:E.
  - cbn [convert_slot]. unfold coerce_str. now rewrite E.
  - destruct (Num.py_int (strip s)) eqn:Ei.
    + unfold coerce_str. now rewrite E, Ei.
    + destruct (Num.py_float (strip s)) eqn:Ef.
      * unfold coerce_str. now rewrite E, Ei, Ef.
      * cbn [convert_slot]. reflexivity.
Qed.

Lemma convert_slot_idem v : convert_slot (convert_slot v) = convert_slot v.
Proof.
  induction v as [| b | z | f | s | l IH | d IH] using value_nested_ind;
    try reflexivity.
  - apply convert_slot_coerce_str.
  - cbn [convert_slot]. f_equal. rewrite map_map.
    induction IH as [|[k x] d Hx _ IHd]; [reflexivity|].
    cbn [map fst snd] in *. now rewrite Hx, IHd.
Qed.


Lemma dict_keys_convert d : dict_keys (convert_values_to_number d) = dict_keys d.
Proof.
  unfold dict_keys, convert_values_to_number. rewrite map_map.
  now apply map_ext.
Qed.


(** C9.  Coercing an already coerced mapping changes nothing. *)
Theorem convert_values_to_number_idempotent (d : dict) :
  convert_values_to_number (convert_values_to_number d) =
  convert_values_to_number d.
Proof.
  unfold convert_values_to_number. rewrite map_map.
  apply map_ext. intros [k v]. cbn [fst snd]. now rewrite convert_slot_idem.
Qed.




End FieldCoercer.

(* ===================================================================== *)
(** * The marks table                                                    *)
(* ===================================================================== *)

Section Marks.
Import Text.

Lemma sessional_not_other n :
  startswith "SessionalMarks" n = true ->
  startswith "Int" n = false /\ startswith "Quiz" n = false /\
  startswith "Asst" n = false.
Proof.
  unfold startswith. destruct n as [|c n]; [discriminate|].
  intros H. repeat split; dec_chars.
Qed.

Lemma classify_component_sessional subj item :
  sessional (classify_component subj item) =
  sessional subj ++ option_list (kept_sessional item).
Proof.
  destruct item as [n v]. unfold classify_component, kept_sessional.
  destruct (startswith "SessionalMarks" n) eqn:Hs.
  - destruct (sessional_not_other n Hs) as (-> & -> & ->).
    cbn [andb].
    destruct (not_dash_or_zero _ && not_dash_or_zero _); cbn.
    + reflexivity.
    + now rewrite app_nil_r.
  - cbn [andb option_list option_rect]. rewrite app_nil_r.
    destruct (startswith "Int" n); [reflexivity|].
    destruct (startswith "Quiz" n); [reflexivity|].
    destruct (startswith "Asst" n); reflexivity.
Qed.

Lemma omap_cons_eq {A B} (f : A -> option B) x l :
  omap f (x :: l) = option_list (f x) ++ omap f l.
Proof. simpl. now destruct (f x). Qed.

Lemma fold_classify_sessional temp subj :
  sessional (fold_left classify_component temp subj) =
  sessional subj ++ omap kept_sessional temp.
Proof.
  revert subj. induction temp as [|item temp IH]; intros subj.
  - cbn. now rewrite app_nil_r.
  - cbn [fold_left]. rewrite IH, classify_component_sessional, <- app_assoc.
    f_equal. now rewrite omap_cons_eq.
Qed.


Lemma dict_keys_set k v d :
  dict_keys (dict_set k v d) =
  if bool_decide (k ∈ dict_keys d) then dict_keys d else dict_keys d ++ [k].
Proof.
  unfold dict_keys. induction d as [|[k' v'] d IH]; [reflexivity|].
  cbn [dict_set map fst]. destruct (String.eqb_spec k k') as [->|Hne].
  - rewrite bool_decide_eq_true_2 by constructor. reflexivity.
  - cbn [map fst]. rewrite IH. destruct (bool_decide_reflect (k ∈ map fst d)) as [Hin|Hin].
    + rewrite bool_decide_eq_true_2 by now constructor. reflexivity.
    + rewrite bool_decide_eq_false_2; [reflexivity|].
      intros [?|?]%elem_of_cons; congruence.
Qed.

Lemma NoDup_dict_set k v d :
  NoDup (dict_keys d) -> NoDup (dict_keys (dict_set k v d)).
Proof.
  intros H. rewrite dict_keys_set.
  destruct (bool_decide_reflect (k ∈ dict_keys d)) as [Hin|Hin]; [exact H|].
  apply NoDup_app. split; [exact H|]. split.
  - intros x Hx ->%list_elem_of_singleton. contradiction.
  - apply NoDup_singleton.
Qed.

Lemma dict_get_None k d : k ∉ dict_keys d -> dict_get k d = None.
Proof.
  unfold dict_keys. induction d as [|[k' v'] d IH]; [reflexivity|].
  cbn [map fst dict_get]. intros Hn.
  destruct (String.eqb_spec k k') as [->|Hne].
  - exfalso. apply Hn. constructor.
  - apply IH. intros Hin. apply Hn. now constructor.
Qed.

Lemma route_cell_invariant st col :
  sessional st.1 = [] /\ NoDup (dict_keys st.2) ->
  sessional (route_cell st col).1 = [] /\ NoDup (dict_keys (route_cell st col).2).
Proof.
  destruct st as [subj temp], col as [[main_header sub_type] text].
  cbn [fst snd]. intros [Hs Hn]. unfold route_cell.
  repeat case_match; cbn [fst snd sessional]; split;
    solve [assumption | now apply NoDup_dict_set].
Qed.

Lemma row_components_invariant cm texts :
  sessional (row_components cm texts).1 = [] /\
  NoDup (dict_keys (row_components cm texts).2).
Proof.
  unfold row_components.
  assert (sessional (empty_subject, @nil (string * value)).1 = [] /\
          NoDup (dict_keys (empty_subject, @nil (string * value)).2)) as H.
  { split; [reflexivity|constructor]. }
  revert H. generalize (empty_subject, @nil (string * value)).
  induction (zip cm texts) as [|col cols IH]; intros st H; [exact H|].
  cbn [fold_left]. apply IH, route_cell_invariant, H.
Qed.

Lemma kept_sessional_name k x e : kept_sessional (k, x) = Some e -> c_name e = k.
Proof.
  unfold kept_sessional. case_match; [|discriminate]. now intros [= <-].
Qed.

Lemma filter_kept_absent n (temp : dict) :
  n ∉ dict_keys temp ->
  filter (fun e => c_name e = n) (omap kept_sessional temp) = [].
Proof.
  unfold dict_keys. induction temp as [|[k x] temp IH]; [reflexivity|].
  cbn [map fst]. intros Hn. rewrite omap_cons_eq.
  assert (n ∉ map fst temp) as Hn' by (intros ?; apply Hn; now constructor).
  destruct (kept_sessional (k, x)) as [e|] eqn:E; cbn [option_list option_rect app];
    [|now apply IH].
  rewrite filter_cons_False; [now apply IH|].
  rewrite (kept_sessional_name _ _ _ E). intros ->. apply Hn. constructor.
Qed.

Lemma filter_kept_present n v (temp : dict) :
  NoDup (dict_keys temp) -> dict_get n temp = Some v ->
  filter (fun e => c_name e = n) (omap kept_sessional temp) =
  option_list (kept_sessional (n, v)).
Proof.
  unfold dict_keys. induction temp as [|[k x] temp IH]; [discriminate|].
  cbn [map fst dict_get]. intros [Hk Hnd]%NoDup_cons.
  rewrite omap_cons_eq.
  destruct (String.eqb_spec n k) as [->|Hne].
  - intros [= ->].
    destruct (kept_sessional (k, v)) as [e|] eqn:E; cbn [option_list option_rect app].
    + rewrite filter_cons_True by exact (kept_sessional_name _ _ _ E).
      now rewrite (filter_kept_absent k temp Hk).
    + exact (filter_kept_absent k temp Hk).
  - intros Hget.
    destruct (kept_sessional (k, x)) as [e|] eqn:E; cbn [option_list option_rect app];
      [|now apply IH].
    rewrite filter_cons_False; [now apply IH|].
    rewrite (kept_sessional_name _ _ _ E). congruence.
Qed.

(** C2 (as amended).  In every parsed data row, the pair recorded under a
    label that starts with ["SessionalMarks"] appears in the sessional array,
    once and with its two values, exactly when its [max] is neither ['-'] nor
    [0] and its [secured] is neither ['-'] nor [0]; it is omitted as soon as
    one of the two is. *)
Theorem sessional_entry_kept_iff cm texts comp_name values :
  dict_get comp_name (row_components cm texts).2 = Some (VDict values) ->
  startswith "SessionalMarks" comp_name = true ->
  filter (fun e => c_name e = comp_name)
         (sessional (parse_subject_row cm texts)) =
  if not_dash_or_zero (get_or_zero "max" values)
     && not_dash_or_zero (get_or_zero "secured" values)
  then [Component comp_name (get_or_zero "max" values)
                            (get_or_zero "secured" values)]
  else [].
Proof.
  intros Hget Hs. unfold parse_subject_row.
  destruct (row_components_invariant cm texts) as [Hnil Hnd].
  destruct (row_components cm texts) as [subj temp]. cbn [fst snd] in *.
  rewrite fold_classify_sessional, Hnil, app_nil_l.
  rewrite (filter_kept_present _ _ _ Hnd Hget).
  unfold kept_sessional. rewrite Hs. cbn [andb].
  now destruct (not_dash_or_zero _ && not_dash_or_zero _).
Qed.

Lemma sessional_entry_kept_iff_witness :
  let cm := build_component_map
              ["S.No"; "Subject Name"; "Int1"; "SessionalMarks"; "ExternalGrades"] in
  let texts := ["1"; "Maths"; "20"; "18"; "40"; "35"; "A"; "9"; "3"] in
  dict_get "SessionalMarks" (row_components cm texts).2
    = Some (VDict [("max", VInt 40); ("secured", VInt 35)]) /\
  startswith "SessionalMarks" "SessionalMarks" = true /\
  filter (fun e => c_name e = "SessionalMarks")
         (sessional (parse_subject_row cm texts))
    = [Component "SessionalMarks" (VInt 40) (VInt 35)].
Proof.
  intros cm texts.
  split; [reflexivity|]. split; [reflexivity|].
  exact (sessional_entry_kept_iff cm texts "SessionalMarks"
           [("max", VInt 40); ("secured", VInt 35)] eq_refl eq_refl).
Defined.

(** C2, the claim as stated fails: with [max = 40] and [secured = 0] one of
    the two values is a non-zero number, and the entry is omitted all the
    same. *)
Lemma sessional_entry_dropped_with_max :
  let cm := build_component_map
              ["S.No"; "Subject Name"; "SessionalMarks"; "ExternalGrades"] in
  let texts := ["1"; "Maths"; "40"; "0"; "A"; "9"; "3"] in
  dict_get "SessionalMarks" (row_components cm texts).2
    = Some (VDict [("max", VInt 40); ("secured", VInt 0)]) /\
  eq_zero (VInt 40) = false /\
  sessional (parse_subject_row cm texts) = [].
Proof. vm_compute. repeat split. Qed.

End Marks.

(* ===================================================================== *)
(** * The attendance matrices                                            *)
(* ===================================================================== *)

Section ResultFacts.

Lemma bind_Ok {A B} (m : result A) (f : A -> result B) y :
  m ≫= f = Ok y -> exists x, m = Ok x /\ f x = Ok y.
Proof. destruct m as [x|e]; [|discriminate]. intros H. now exists x. Qed.

Lemma mapM_cons {A B} (f : A -> result B) x l :
  mapM f (x :: l) = y ← f x; k ← mapM f l; Ok (y :: k).
Proof. reflexivity. Qed.

Lemma index_lookup {A} (l : list A) i x : l !! i = Some x -> index l i = Ok x.
Proof. unfold index. now intros ->. Qed.

End ResultFacts.

Section DictFacts.

Lemma dict_set_fresh k v (d : dict) :
  k ∉ dict_keys d -> dict_set k v d = d ++ [(k, v)].
Proof.
  unfold dict_keys. induction d as [|[k' v'] d IH]; [reflexivity|].
  cbn [map fst dict_set]. intros Hn.
  destruct (String.eqb_spec k k') as [->|Hne].
  - exfalso. apply Hn. constructor.
  - cbn [app]. rewrite IH; [reflexivity|]. intros ?. apply Hn. now constructor.
Qed.

Lemma elem_of_dict_set k v (d : dict) kv :
  kv ∈ dict_set k v d -> kv = (k, v) \/ kv ∈ d.
Proof.
  induction d as [|[k' v'] d IH]; cbn [dict_set].
  - intros H. apply list_elem_of_singleton in H as ->. now left.
  - destruct (String.eqb k k').
    + intros [->|H]%elem_of_cons; [now left|]. right. now constructor.
    + intros [->|H]%elem_of_cons; [right; constructor|].
      destruct (IH H) as [->|H']; [now left|]. right. now constructor.
Qed.

Lemma fold_dict_set_distinct (items acc : dict) :
  NoDup (dict_keys acc ++ dict_keys items) ->
  fold_left (fun d kv => dict_set kv.1 kv.2 d) items acc = acc ++ items.
Proof.
  revert acc. induction items as [|[k v] items IH]; intros acc H.
  - cbn. now rewrite app_nil_r.
  - cbn [fold_left fst snd]. cbn [dict_keys map fst] in H.
    assert (k ∉ dict_keys acc) as Hk.
    { apply NoDup_app in H as (_ & H & _). intros Hin. apply (H k Hin). constructor. }
    rewrite (dict_set_fresh _ _ _ Hk), IH.
    + now rewrite <- app_assoc.
    + unfold dict_keys in *. rewrite map_app, <- app_assoc. exact H.
Qed.

Lemma dict_of_items_distinct (items : dict) :
  NoDup (dict_keys items) -> dict_of_items items = items.
Proof. intros H. unfold dict_of_items. now rewrite fold_dict_set_distinct. Qed.

Lemma fold_dict_set_keys (items acc : dict) k :
  k ∈ dict_keys (fold_left (fun d kv => dict_set kv.1 kv.2 d) items acc) ->
  k ∈ dict_keys acc \/ k ∈ dict_keys items.
Proof.
  revert acc. induction items as [|[k' v] items IH]; intros acc H.
  - now left.
  - cbn [fold_left fst snd] in H. destruct (IH _ H) as [H'|H'].
    + rewrite dict_keys_set in H'. case_bool_decide.
      * now left.
      * apply elem_of_app in H' as [H'|H']; [now left|].
        apply list_elem_of_singleton in H' as ->. right. constructor.
    + right. now constructor.
Qed.

Lemma dict_of_items_keys items k :
  k ∈ dict_keys (dict_of_items items) -> k ∈ dict_keys items.
Proof.
  intros H. apply fold_dict_set_keys in H as [H|H]; [|exact H].
  now apply elem_of_nil in H.
Qed.

Lemma convert_zip_str names (texts : list string) :
  convert_values_to_number (zip names (map VStr texts)) =
  zip names (map coerce_str texts).
Proof.
  unfold convert_values_to_number.
  revert texts. induction names as [|n names IH]; intros [|t texts];
    [reflexivity..|].
  cbn [map zip zip_with fst snd convert_slot]. now rewrite <- IH.
Qed.

End DictFacts.

Section Attendance.
Import Text.

Lemma begins_with_eca_is_eca k : begins_with_eca k = true -> is_eca k = true.
Proof.
  unfold is_eca, startswith.
  destruct k as [|c1 [|c2 [|c3 k]]]; try discriminate.
  cbn [begins_with_eca upper]. rewrite !prefix_cons, prefix_nil_l.
  intros H. apply andb_true_iff in H as [H H3]. apply andb_true_iff in H as [H1 H2].
  apply orb_true_iff in H1, H2, H3.
  destruct H1 as [->%Ascii.eqb_eq | ->%Ascii.eqb_eq];
  destruct H2 as [->%Ascii.eqb_eq | ->%Ascii.eqb_eq];
  destruct H3 as [->%Ascii.eqb_eq | ->%Ascii.eqb_eq]; reflexivity.
Qed.

Lemma upper_char_E c :
  Ascii.eqb "E" (upper_char c) = Ascii.eqb c "E" || Ascii.eqb c "e".
Proof. destruct c as [[] [] [] [] [] [] [] []]; reflexivity. Qed.

Lemma upper_char_C c :
  Ascii.eqb "C" (upper_char c) = Ascii.eqb c "C" || Ascii.eqb c "c".
Proof. destruct c as [[] [] [] [] [] [] [] []]; reflexivity. Qed.

Lemma upper_char_A c :
  Ascii.eqb "A" (upper_char c) = Ascii.eqb c "A" || Ascii.eqb c "a".
Proof. destruct c as [[] [] [] [] [] [] [] []]; reflexivity. Qed.

(** The test of the code and "begins with ECA in any letter case" agree. *)
Lemma is_eca_begins_with_eca k : is_eca k = begins_with_eca k.
Proof.
  unfold is_eca, startswith.
  destruct k as [|c1 [|c2 [|c3 k]]]; try reflexivity.
  - cbn [upper begins_with_eca]. rewrite !prefix_cons, prefix_nil_r.
    now rewrite andb_false_r.
  - cbn [upper begins_with_eca]. rewrite !prefix_cons, prefix_nil_r.
    now rewrite !andb_false_r.
  - cbn [upper begins_with_eca]. rewrite !prefix_cons, prefix_nil_l, andb_true_r.
    now rewrite upper_char_E, upper_char_C, upper_char_A, andb_assoc.
Qed.

(** The retained names are the names that pass the test, in order. *)
Lemma select_keep_from (pre l : list string) :
  mapM (index (pre ++ l))
    (map fst (filter (fun p : nat * string => is_eca p.2 = false)
                     (zip (seq (length pre) (length l)) l))) =
  Ok (filter (fun n => is_eca n = false) l).
Proof.
  revert pre. induction l as [|x l IH]; intros pre; [reflexivity|].
  cbn [length seq zip zip_with].
  specialize (IH (pre ++ [x])).
  rewrite <- app_assoc, length_app in IH. cbn [app length] in IH.
  replace (length pre + 1)%nat with (S (length pre)) in IH by lia.
  destruct (decide (is_eca x = false)) as [Hx|Hx].
  - rewrite filter_cons_True by exact Hx.
    rewrite (filter_cons_True (fun n => is_eca n = false)) by exact Hx.
    cbn [map fst]. rewrite mapM_cons, IH.
    rewrite (index_lookup _ _ x); [reflexivity|].
    rewrite lookup_app_r by lia. now rewrite Nat.sub_diag.
  - rewrite filter_cons_False by exact Hx.
    rewrite (filter_cons_False (fun n => is_eca n = false)) by exact Hx.
    exact IH.
Qed.

Lemma select_keep (full_names : list string) :
  select full_names (keep_indices_of full_names) =
  Ok (filter (fun n => is_eca n = false) full_names).
Proof. exact (select_keep_from [] full_names). Qed.

(** The guarded comprehension never fails: it drops the indices that are
    out of range. *)
Lemma select_in_range (values : list string) (keep_indices : list nat) :
  select values (filter (fun i => (i < length values)%nat) keep_indices) =
  Ok (omap (fun i => values !! i) keep_indices).
Proof.
  unfold select. induction keep_indices as [|i keep IH]; [reflexivity|].
  rewrite omap_cons_eq.
  destruct (decide (i < length values)%nat) as [Hi|Hi].
  - rewrite filter_cons_True by exact Hi.
    destruct (lookup_lt_is_Some_2 values i Hi) as [x Hx].
    rewrite mapM_cons, IH, (index_lookup _ _ _ Hx), Hx. reflexivity.
  - rewrite filter_cons_False by exact Hi.
    rewrite (lookup_ge_None_2 values i) by lia. exact IH.
Qed.

Lemma row_mapping_eq names keep_indices values :
  row_mapping names keep_indices values =
  Ok (convert_values_to_number
        (dict_of_items
           (zip names (map VStr (omap (fun i => values !! i) keep_indices))))).
Proof. unfold row_mapping. now rewrite select_in_range. Qed.

Lemma zip_keys (names : list string) (vs : list value) k :
  k ∈ dict_keys (zip names vs) -> k ∈ names.
Proof.
  unfold dict_keys. revert vs. induction names as [|n names IH]; intros [|v vs];
    cbn [zip zip_with map fst]; try (intros H; now apply elem_of_nil in H).
  intros [->|H]%elem_of_cons; [constructor|]. constructor. now apply (IH vs).
Qed.

Lemma row_mapping_keys names keep_indices values mapping k :
  row_mapping names keep_indices values = Ok mapping ->
  k ∈ dict_keys mapping -> k ∈ names.
Proof.
  rewrite row_mapping_eq. intros [= <-]. rewrite dict_keys_convert.
  intros H%dict_of_items_keys. exact (zip_keys _ _ _ H).
Qed.

Lemma attendance_rows_keys title_at names keep_indices rows data data' :
  attendance_rows title_at names keep_indices rows data = Ok data' ->
  rows_keyed_by names data -> rows_keyed_by names data'.
Proof.
  revert data. induction rows as [|row rows IH]; intros data.
  - now intros [= <-].
  - cbn [attendance_rows]. destruct (Soup.find_all ["td"] [] row) as [|c cells] eqn:E.
    + apply IH.
    + intros H Hdata.
      apply bind_Ok in H as (title_cell & _ & H).
      apply bind_Ok in H as (mapping & Hm & H).
      apply IH in H; [exact H|].
      intros title v [[= -> ->]|Hin]%elem_of_dict_set.
      * exists mapping. split; [reflexivity|].
        intros k. exact (row_mapping_keys _ _ _ _ _ Hm).
      * exact (Hdata _ _ Hin).
Qed.

Lemma rows_keyed_by_nil names : rows_keyed_by names [].
Proof. intros title v H. now apply elem_of_nil in H. Qed.

Lemma kept_not_eca (full : list string) k :
  k ∈ filter (fun n => is_eca n = false) full -> begins_with_eca k = false.
Proof.
  intros [Hk _]%list_elem_of_filter.
  destruct (begins_with_eca k) eqn:E; [|reflexivity].
  apply begins_with_eca_is_eca in E. congruence.
Qed.

(** C3.  In both matrices returned by [get_attendance_subjects] every row
    is a mapping, and no key of it begins with "ECA" in any letter case. *)
Theorem eca_subjects_excluded (BeautifulSoup : string -> node) html
    sub_attendance_data total_attendance_data image_url :
  get_attendance_subjects BeautifulSoup html =
    Ok (sub_attendance_data, total_attendance_data, image_url) ->
  forall title v,
    (title, v) ∈ sub_attendance_data ++ total_attendance_data ->
    exists m, v = VDict m /\
      forall k, k ∈ dict_keys m -> begins_with_eca k = false.
Proof.
  unfold get_attendance_subjects.
  set (soup := BeautifulSoup html).
  assert (forall img title v,
            Ok (@nil (string * value), @nil (string * value), img) =
            Ok (sub_attendance_data, total_attendance_data, image_url) ->
            (title, v) ∈ sub_attendance_data ++ total_attendance_data ->
            exists m, v = VDict m /\
              forall k, k ∈ dict_keys m -> begins_with_eca k = false) as Hempty.
  { intros img title v [= <- <- _] H. now apply elem_of_nil in H. }
  destruct (Soup.find ["table"] [("id", "TblDispAttSubSummary")] soup)
    as [sub_summary_table|]; [|intros H title v; exact (Hempty _ _ _ H)].
  destruct (Soup.find ["table"] [("id", "TblDispAttSummary")] soup)
    as [total_summary_table|]; [|intros H title v; exact (Hempty _ _ _ H)].
  destruct (Soup.find ["table"] [("class", "tableclass")] sub_summary_table)
    as [sub_inner_table|]; [|intros H title v; exact (Hempty _ _ _ H)].
  destruct (Soup.find ["table"] [("class", "tableclass")] total_summary_table)
    as [total_inner_table|]; [|intros H title v; exact (Hempty _ _ _ H)].
  destruct (Soup.find_all ["tr"] [] sub_inner_table) as [|sub_header sub_data];
    [intros H title v; exact (Hempty _ _ _ H)|].
  destruct (Soup.find_all ["tr"] [] total_inner_table) as [|total_header total_data];
    [intros H title v; exact (Hempty _ _ _ H)|].
  rewrite !select_keep. cbn [mbind result_bind].
  intros H.
  apply bind_Ok in H as (sub & Hsub & H).
  apply bind_Ok in H as (tot & Htot & H).
  injection H as <- <- _.
  apply attendance_rows_keys in Hsub; [|apply rows_keyed_by_nil].
  apply attendance_rows_keys in Htot; [|apply rows_keyed_by_nil].
  intros title v [Hin|Hin]%elem_of_app.
  - destruct (Hsub _ _ Hin) as (m & -> & Hk). exists m. split; [reflexivity|].
    intros k Hkm. exact (kept_not_eca _ _ (Hk _ Hkm)).
  - destruct (Htot _ _ Hin) as (m & -> & Hk). exists m. split; [reflexivity|].
    intros k Hkm. exact (kept_not_eca _ _ (Hk _ Hkm)).
Qed.


Example attendance_page_result :
  get_attendance_subjects (fun _ => attendance_page) "" =
  Ok ([("Held Classes", VDict [("DS", VInt 10); ("DBMS(OE)-OE", VInt 12)]);
       ("Presentees", VDict [("DS", VInt 9)])],
      [("Held Classes", VDict [("Theory", VInt 22)])],
      Some (AStr "photo.jpg")).
Proof. vm_compute. reflexivity. Qed.

Lemma eca_subjects_excluded_witness :
  get_attendance_subjects (fun _ => attendance_page) "" =
    Ok ([("Held Classes", VDict [("DS", VInt 10); ("DBMS(OE)-OE", VInt 12)]);
         ("Presentees", VDict [("DS", VInt 9)])],
        [("Held Classes", VDict [("Theory", VInt 22)])],
        Some (AStr "photo.jpg")) /\
  exists m, VDict [("DS", VInt 9)] = VDict m /\
    forall k, k ∈ dict_keys m -> begins_with_eca k = false.
Proof.
  split; [vm_compute; reflexivity|].
  apply (eca_subjects_excluded (fun _ => attendance_page) ""
           [("Held Classes", VDict [("DS", VInt 10); ("DBMS(OE)-OE", VInt 12)]);
            ("Presentees", VDict [("DS", VInt 9)])]
           [("Held Classes", VDict [("Theory", VInt 22)])]
           (Some (AStr "photo.jpg")) eq_refl "Presentees").
  apply list_elem_of_In. cbn. tauto.
Defined.

Lemma zip_keys_take (names : list string) (vs : list value) :
  dict_keys (zip names vs) = take (length vs) names.
Proof.
  unfold dict_keys. revert vs. induction names as [|n names IH]; intros [|v vs];
    try reflexivity.
  cbn [zip zip_with map fst length take]. now rewrite <- IH.
Qed.

Lemma length_zip_min (names : list string) (vs : list value) :
  length (zip names vs) = Nat.min (length names) (length vs).
Proof.
  revert vs. induction names as [|n names IH]; intros [|v vs]; try reflexivity.
  cbn [zip zip_with length Nat.min]. now rewrite <- IH.
Qed.

(** C4 (as amended).  When the subject names that get a value are pairwise
    distinct, the mapping of a data row pairs the retained names with the
    (coerced) retained values position by position and stops at the end of
    the shorter list, so it has as many entries as the shorter list. *)
Theorem row_mapping_truncates names keep_indices values :
  let filtered_values := omap (fun i => values !! i) keep_indices in
  NoDup (take (length filtered_values) names) ->
  row_mapping names keep_indices values =
    Ok (zip names (map coerce_str filtered_values)) /\
  length (zip names (map coerce_str filtered_values)) =
    Nat.min (length names) (length filtered_values).
Proof.
  intros filtered_values Hnd. split.
  - rewrite row_mapping_eq. fold filtered_values.
    rewrite dict_of_items_distinct.
    + now rewrite convert_zip_str.
    + rewrite zip_keys_take. now rewrite length_map.
  - now rewrite length_zip_min, length_map.
Qed.

Lemma row_mapping_truncates_witness :
  NoDup (take (length (omap (fun i => ["9"; "2"] !! i) [0%nat; 2%nat]))
              ["DS"; "DBMS(OE)-OE"]) /\
  row_mapping ["DS"; "DBMS(OE)-OE"] [0%nat; 2%nat] ["9"; "2"] =
    Ok [("DS", VInt 9)].
Proof.
  assert (NoDup (take (length (omap (fun i => ["9"; "2"] !! i) [0%nat; 2%nat]))
                      ["DS"; "DBMS(OE)-OE"])) as H.
  { cbn. apply NoDup_singleton. }
  split; [exact H|].
  exact (proj1 (row_mapping_truncates ["DS"; "DBMS(OE)-OE"] [0%nat; 2%nat]
                  ["9"; "2"] H)).
Defined.

(** C4, the claim as stated fails: with the subject "DS" named twice in
    the header, a row of two values against three names yields one entry,
    not two. *)
Lemma repeated_subject_collapses :
  get_attendance_subjects (fun _ => attendance_page_repeated) "" =
    Ok ([("Held Classes", VDict [("DS", VInt 12)])],
        [("Held Classes", VDict [("Theory", VInt 22)])], None) /\
  row_mapping ["DS"; "DS"; "DBMS"] [0%nat; 1%nat; 2%nat] ["10"; "12"] =
    Ok [("DS", VInt 12)] /\
  length [("DS", VInt 12)] <>
    Nat.min (length ["DS"; "DS"; "DBMS"]) (length ["10"; "12"]).
Proof. split; [|split]; vm_compute; [reflexivity|reflexivity|discriminate]. Qed.

(** C6.  When a summary table, or the inner table of one, is missing, the
    call returns two empty matrices and the image URL it found. *)
Theorem get_attendance_subjects_degrades (BeautifulSoup : string -> node) html :
  let soup := BeautifulSoup html in
  Soup.find ["table"] [("id", "TblDispAttSubSummary")] soup = None \/
  Soup.find ["table"] [("id", "TblDispAttSummary")] soup = None \/
  (exists sub_summary_table,
     Soup.find ["table"] [("id", "TblDispAttSubSummary")] soup = Some sub_summary_table /\
     Soup.find ["table"] [("class", "tableclass")] sub_summary_table = None) \/
  (exists total_summary_table,
     Soup.find ["table"] [("id", "TblDispAttSummary")] soup = Some total_summary_table /\
     Soup.find ["table"] [("class", "tableclass")] total_summary_table = None) ->
  get_attendance_subjects BeautifulSoup html =
    Ok ([], [],
        match Soup.find ["img"] [] soup with
        | Some img_tag => Soup.get_attr "src" img_tag
        | None => None
        end).
Proof.
  intros soup H. unfold get_attendance_subjects. fold soup.
  destruct (Soup.find ["table"] [("id", "TblDispAttSubSummary")] soup)
    as [sub_summary_table|]; [|reflexivity].
  destruct (Soup.find ["table"] [("id", "TblDispAttSummary")] soup)
    as [total_summary_table|]; [|reflexivity].
  destruct H as [H | [H | [(t & [= <-] & H) | (t & [= <-] & H)]]];
    try discriminate; rewrite H.
  - reflexivity.
  - now destruct (Soup.find ["table"] [("class", "tableclass")] sub_summary_table).
Qed.

Lemma get_attendance_subjects_degrades_witness :
  Soup.find ["table"] [("id", "TblDispAttSummary")] attendance_page_partial = None /\
  get_attendance_subjects (fun _ => attendance_page_partial) "" =
    Ok ([], [], Some (AStr "photo.jpg")).
Proof.
  split; [reflexivity|].
  apply (get_attendance_subjects_degrades (fun _ => attendance_page_partial) "").
  right. left. reflexivity.
Defined.

End Attendance.

(* ===================================================================== *)
(** * The student profile and the dashboard handler                      *)
(* ===================================================================== *)

Section StudentInfo.
Import Text.
Variable BeautifulSoup : string -> node.

Lemma convert_nonempty (d : dict) : d <> [] -> convert_values_to_number d <> [].
Proof. destruct d; [congruence|discriminate]. Qed.

(** C5.  [get_student_info] raises the portal error or returns a non-empty
    mapping; it raises when the student-information container is missing,
    when the container has no table, and when the table has no row. *)
Theorem get_student_info_never_empty html :
  ((exists message,
      get_student_info BeautifulSoup html = Raise (CollegePortalError 500 message)) \/
   (exists data, get_student_info BeautifulSoup html = Ok data /\ data <> [])) /\
  (Soup.find ["div"] [("id", "divStudentInfo")] (BeautifulSoup html) = None ->
   exists message,
     get_student_info BeautifulSoup html = Raise (CollegePortalError 500 message)) /\
  (forall student_info_div,
     Soup.find ["div"] [("id", "divStudentInfo")] (BeautifulSoup html) = Some student_info_div ->
     Soup.find ["table"] [] student_info_div = None ->
     exists message,
       get_student_info BeautifulSoup html = Raise (CollegePortalError 500 message)) /\
  (forall student_info_div table,
     Soup.find ["div"] [("id", "divStudentInfo")] (BeautifulSoup html) = Some student_info_div ->
     Soup.find ["table"] [] student_info_div = Some table ->
     Soup.find_all ["tr"] [] table = [] ->
     exists message,
       get_student_info BeautifulSoup html = Raise (CollegePortalError 500 message)).
Proof.
  unfold get_student_info.
  destruct (negb (nonempty html) || (String.length (strip html) =? 0)%nat).
  { repeat split; intros; eauto. }
  destruct (Soup.find ["div"] [("id", "divStudentInfo")] (BeautifulSoup html))
    as [student_info_div|].
  2:{ repeat split; intros; try discriminate; eauto. }
  destruct (Soup.find ["table"] [] student_info_div) as [table|] eqn:Etable.
  2:{ repeat split; intros; try discriminate; eauto. }
  split; [|split; [discriminate|split]].
  - match goal with |- context [fold_left ?f ?l ?a] =>
      destruct (fold_left f l a) as [|kv data] eqn:E end.
    + left. eexists. reflexivity.
    + right. eexists. split; [reflexivity|]. apply convert_nonempty. discriminate.
  - intros d [= <-] H. congruence.
  - intros d t [= <-] H. rewrite Etable in H. injection H as <-.
    intros ->. cbn [fold_left]. eexists. reflexivity.
Qed.

End StudentInfo.

Example get_student_info_page :
  get_student_info (fun _ => dashboard_page) "<html>" =
  Ok [("Name", VStr "M.Harshith"); ("Sem.", VInt 5)].
Proof. vm_compute. reflexivity. Qed.

Lemma get_student_info_never_empty_witness :
  Soup.find ["div"] [("id", "divStudentInfo")] dashboard_page_no_rows
    = Some (Tag "div" [("id", AStr "divStudentInfo")] [Tag "table" [] []]) /\
  Soup.find ["table"] [] (Tag "div" [("id", AStr "divStudentInfo")] [Tag "table" [] []])
    = Some (Tag "table" [] []) /\
  Soup.find_all ["tr"] [] (Tag "table" [] []) = [] /\
  exists message,
    get_student_info (fun _ => dashboard_page_no_rows) "<html>" =
    Raise (CollegePortalError 500 message).
Proof.
  split; [reflexivity|]. split; [reflexivity|]. split; [reflexivity|].
  destruct (get_student_info_never_empty (fun _ => dashboard_page_no_rows) "<html>")
    as (_ & _ & _ & H).
  exact (H _ _ eq_refl eq_refl eq_refl).
Defined.

Section Dashboard.
Import Text.

Variable BeautifulSoup : string -> node.
Variable json_loads : string -> option value.
Variable json_dumps : value -> option string.
Variable portal : string -> string -> result string.
Variable get_current_sem : string -> result dict.
Variable parse_marks_table : string -> result (value * value).

(** C7.  After a cache miss, when the dashboard page that comes back does
    not contain "Logout", the handler raises [HTTPException 401 "Session
    expired"]; the only request sent is the one for the dashboard page, and
    the cache is as it was. *)
Theorem dashboard_session_expired session_id w html_text :
  from_option truthy false
    (get_cached_data json_loads w ("erp:session:" +:+ session_id)) = false ->
  portal DASHBOARD_URL session_id = Ok html_text ->
  contains "Logout" html_text = false ->
  dashboard BeautifulSoup json_loads json_dumps portal get_current_sem
            parse_marks_table session_id w =
    (Raise (HTTPException 401 "Session expired"),
     World (redis w) (requests w ++ [DASHBOARD_URL])).
Proof.
  intros Hmiss Hpage Hlogout.
  assert (dashboard_miss BeautifulSoup json_dumps portal get_current_sem
            parse_marks_table session_id ("erp:session:" +:+ session_id) w =
          (Raise (HTTPException 401 "Session expired"),
           World (redis w) (requests w ++ [DASHBOARD_URL]))) as Hm.
  { unfold dashboard_miss, client_get. now rewrite Hpage, Hlogout. }
  unfold dashboard.
  destruct (get_cached_data json_loads w ("erp:session:" +:+ session_id))
    as [cached_data|]; [|exact Hm].
  cbn [from_option] in Hmiss. now rewrite Hmiss.
Qed.

End Dashboard.

Lemma dashboard_session_expired_witness :
  let portal := fun (url session_id : string) =>
    (Ok "<html><a href='Default.aspx'>Login</a></html>" : result string) in
  let w := World ∅ [] in
  from_option truthy false
    (get_cached_data (fun _ => None) w ("erp:session:" +:+ "abc123")) = false /\
  Text.contains "Logout" "<html><a href='Default.aspx'>Login</a></html>" = false /\
  dashboard (fun _ => dashboard_page) (fun _ => None) (fun _ => None) portal
            (fun _ => Ok []) (fun _ => Raise TypeError) "abc123" w =
    (Raise (HTTPException 401 "Session expired"), World ∅ [DASHBOARD_URL]).
Proof.
  intros portal w.
  split; [reflexivity|]. split; [reflexivity|].
  exact (dashboard_session_expired (fun _ => dashboard_page) (fun _ => None)
           (fun _ => None) portal (fun _ => Ok []) (fun _ => Raise TypeError)
           "abc123" w "<html><a href='Default.aspx'>Login</a></html>"
           eq_refl eq_refl eq_refl).
Defined.

(** With the marker present the handler goes on to the two sub-pages and
    stores the snapshot. *)
Example dashboard_logged_in :
  let portal := fun (url session_id : string) =>
    (Ok "<html>Logout</html>" : result string) in
  let get_current_sem := fun _ : string =>
    Ok [("Attendance Link", VStr "https://erp.vce.ac.in/sinfo/att");
        ("Marks Link", VStr "https://erp.vce.ac.in/sinfo/marks")] in
  let out := dashboard (fun _ => dashboard_page) (fun _ => None)
               (fun _ => Some "doc") portal get_current_sem
               (fun _ => Ok (VDict [], VStr "M")) "abc123" (World ∅ []) in
  requests out.2 = [DASHBOARD_URL; "https://erp.vce.ac.in/sinfo/att";
                    "https://erp.vce.ac.in/sinfo/marks"] /\
  redis out.2 !! "erp:session:abc123" = Some ("doc", 3600) /\
  exists snapshot, out.1 = Ok (VDict [("dashboardData", snapshot)]).
Proof.
  cbv zeta. split; [vm_compute; reflexivity|]. split; [vm_compute; reflexivity|].
  eexists. vm_compute. reflexivity.
Qed.

(* ===================================================================== *)
(** * Adequacy of two definitions                                        *)
(* ===================================================================== *)

Section Adequacy.
Import Text.

Lemma dict_set_middle k x v (pre rest : dict) :
  k ∉ dict_keys pre ->
  dict_set k x (pre ++ (k, v) :: rest) = pre ++ (k, x) :: rest.
Proof.
  unfold dict_keys. induction pre as [|[k' v'] pre IH]; cbn [app map fst dict_set].
  - intros _. now rewrite String.eqb_refl.
  - intros Hn. destruct (String.eqb_spec k k') as [->|Hne].
    + exfalso. apply Hn. constructor.
    + rewrite IH; [reflexivity|]. intros ?. apply Hn. now constructor.
Qed.

Lemma convert_loop_step_slot (pre rest : dict) k v :
  k ∉ dict_keys pre ->
  convert_loop_step (pre ++ (k, v) :: rest) (k, v) =
  pre ++ (k, convert_slot v) :: rest.
Proof.
  intros Hk. unfold convert_loop_step. cbn [fst snd].
  destruct v as [| b | z | f | s | l | n]; try reflexivity.
  - cbn [convert_slot]. unfold coerce_str.
    destruct (negb (nonempty (strip s))); [reflexivity|].
    destruct (Num.py_int (strip s)); [now apply dict_set_middle|].
    destruct (Num.py_float (strip s)); [now apply dict_set_middle|reflexivity].
  - now apply dict_set_middle.
Qed.

Lemma convert_loop_from (pre rest : dict) :
  NoDup (dict_keys (pre ++ rest)) ->
  fold_left convert_loop_step rest (convert_values_to_number pre ++ rest) =
  convert_values_to_number (pre ++ rest).
Proof.
  revert pre. induction rest as [|[k v] rest IH]; intros pre Hnd.
  - cbn. now rewrite !app_nil_r.
  - cbn [fold_left]. rewrite convert_loop_step_slot.
    + specialize (IH (pre ++ [(k, v)])).
      rewrite <- !app_assoc in IH. cbn [app] in IH.
      unfold convert_values_to_number in *. rewrite map_app in IH.
      cbn [map fst snd] in IH. rewrite <- app_assoc in IH. apply IH, Hnd.
    + rewrite dict_keys_convert. unfold dict_keys in *.
      rewrite map_app in Hnd. apply NoDup_app in Hnd as (_ & Hnd & _).
      intros Hin. apply (Hnd k Hin). constructor.
Qed.

(** The loop written with its assignments computes
    [convert_values_to_number] on every dict (distinct keys). *)
Lemma convert_loop_spec (d : dict) :
  NoDup (dict_keys d) -> convert_loop d = convert_values_to_number d.
Proof. exact (convert_loop_from [] d). Qed.

Lemma prefix_app_iff p s :
  String.prefix p s = true <-> exists b, s = p +:+ b.
Proof.
  revert s. induction p as [|a p IH]; intros s.
  - rewrite prefix_nil_l. split; [|reflexivity]. intros _. now exists s.
  - destruct s as [|c s].
    + split; [discriminate|]. intros [b [=]].
    + rewrite prefix_cons, andb_true_iff, Ascii.eqb_eq, IH. split.
      * intros [-> [b ->]]. now exists b.
      * intros [b [= -> ->]]. split; [reflexivity|]. now exists b.
Qed.

(** [contains p s] holds exactly when [p] is a contiguous part of [s]. *)
Lemma contains_spec p s :
  contains p s = true <-> exists a b, s = a +:+ p +:+ b.
Proof.
  induction s as [|c s IH].
  - cbn [contains]. rewrite orb_false_r, prefix_app_iff. split.
    + intros [b ->]. now exists EmptyString, b.
    + intros ([|a0 a] & b & H); [now exists b|discriminate].
  - rewrite contains_cons, orb_true_iff, prefix_app_iff, IH. split.
    + intros [[b ->] | (a & b & ->)].
      * now exists EmptyString, b.
      * now exists (String c a), b.
    + intros ([|a0 a] & b & H).
      * left. now exists b.
      * right. injection H as -> ->. now exists a, b.
Qed.

End Adequacy.
